(** * onedrive_sync.c: the marker-file writer

    A shallow embedding of [src/onedrive_sync.c].  The program is a single
    [main] that calls six C library functions ([getenv], [snprintf],
    [printf], [fprintf], [fopen], [fclose]).  Each of them is modelled below
    as an operation on an explicit [world] (process environment, file system,
    open streams); [main] is then written call for call as the C text has it,
    in a state monad that also logs, in program order, every library call
    that is visible from outside the process.

    The file has two parts: the definitions (the model of the library, the
    program, the observations made on a run, the example worlds), then the
    lemmas, ending with one section per property of the program. *)

From Stdlib Require Import ZArith Ascii String.
From stdpp Require Import base strings gmap list.

Local Open Scope string_scope.
Local Open Scope Z_scope.

(** * Part I: definitions *)

(** ** C strings *)

Module CString.

(** The terminating byte of a C string, and the line feed written [\n] in
    the C source. *)
Definition NUL : ascii := "000"%char.
Definition LF : string := String "010"%char EmptyString.

(** What a [char *] denotes: the bytes up to the first NUL. *)
Fixpoint c_str (s : string) : string :=
  match s with
  | EmptyString => EmptyString
  | String c s' =>
      if Ascii.eqb c NUL then EmptyString else String c (c_str s')
  end.

(** The first [n] bytes of [s] (all of it when it is shorter). *)
Fixpoint string_take (n : nat) (s : string) : string :=
  match n, s with
  | O, _ => EmptyString
  | S _, EmptyString => EmptyString
  | S n', String c s' => String c (string_take n' s')
  end.

(** Expansion of a format string.  The program only uses the [%s]
    directive; every other byte of the format is copied as it is.  A [%s]
    argument is a [char *], read up to its NUL. *)
Fixpoint format (fmt : string) (args : list string) : string :=
  match fmt with
  | EmptyString => EmptyString
  | String "%" (String "s" rest) =>
      match args with
      | a :: args' => c_str a +:+ format rest args'
      | [] => format rest []
      end
  | String c rest => String c (format rest args)
  end.

(** [snprintf(buf, size, fmt, ...)]: the bytes stored in [buf] and the
    returned count.  At most [size] bytes are stored, the last of which is
    the NUL; the return value is the length the full expansion would have
    had. *)
Definition snprintf (size : nat) (fmt : string) (args : list string)
  : string * Z :=
  let full := format fmt args in
  (match size with
   | O => EmptyString
   | S n => string_take n full +:+ String NUL EmptyString
   end,
   Z.of_nat (String.length full)).

End CString.
Import CString.

(** ** The world outside the program *)

(** A stream handle.  [stdout] and [stderr] are the two standard streams the
    program writes to; [Fstream n] is a stream obtained from [fopen]. *)
Inductive FILE : Type :=
  | stdout
  | stderr
  | Fstream (n : nat).

Definition same_stream (f g : FILE) : bool :=
  match f, g with
  | stdout, stdout | stderr, stderr => true
  | Fstream n, Fstream m => Nat.eqb n m
  | _, _ => false
  end.

(** An open file stream: the path it was opened on and the bytes buffered
    but not yet written out. *)
Record stream : Type := Stream {
  s_path : string;
  s_buf : string
}.

(** The state the library calls read and change.
    - [w_env] is the process environment.
    - [w_openable p] is the operating system's answer to opening [p] for
      writing: it is [false] for a missing directory, a permission denial,
      an over-long path, and so on.
    - [w_quota] is the number of bytes the storage accepts in one file; a
      flush beyond it is cut short and reported as failed.
    - [w_files] maps the path of each regular file to its content, as a
      text stream reads it back.
    - [w_streams] holds the streams opened by [fopen] and not yet closed. *)
Record world : Type := World {
  w_env : gmap string string;
  w_openable : string → bool;
  w_quota : nat;
  w_files : gmap string string;
  w_streams : gmap nat stream
}.

(** What an observer of the process sees, one event per library call, in the
    order of the calls: text sent to a standard stream, a file opened (and
    whether [fopen] returned a stream), text handed to a file stream, a
    stream closed (and whether [fclose] returned 0). *)
Inductive event : Type :=
  | EOut (f : FILE) (text : string)
  | EOpen (path mode : string) (ok : bool)
  | EPut (n : nat) (text : string)
  | EClose (n : nat) (ok : bool).

(** ** The monad of library calls: state passing plus a log *)

Definition M (A : Type) : Type := world → A * world * list event.

#[global] Instance M_ret : MRet M := λ A a w, (a, w, []).

#[global] Instance M_bind : MBind M := λ A B k m w,
  let '(a, w1, l1) := m w in
  let '(b, w2, l2) := k a w1 in
  (b, w2, (l1 ++ l2)%list).

(** The three components of a finished run. *)
Definition exit_status {A} (r : A * world * list event) : A := r.1.1.
Definition final_world {A} (r : A * world * list event) : world := r.1.2.
Definition trace {A} (r : A * world * list event) : list event := r.2.

(** ** The library calls *)

Definition getenv (name : string) : M (option string) := λ w,
  (c_str <$> w_env w !! c_str name, w, []).

(** The handle [fopen] hands out in a world: one that no open stream has. *)
Definition next_handle (w : world) : nat := fresh (dom (w_streams w)).

(** Opening for writing (mode ["w"], the only one the program uses) creates
    the file or truncates it to zero length. *)
Definition fopen (path mode : string) : M (option FILE) := λ w,
  let p := c_str path in
  if w_openable w p then
    let n := next_handle w in
    (Some (Fstream n),
     World (w_env w) (w_openable w) (w_quota w)
           (<[p := EmptyString]> (w_files w))
           (<[n := Stream p EmptyString]> (w_streams w)),
     [EOpen p (c_str mode) true])
  else (None, w, [EOpen p (c_str mode) false]).

(** Text for a standard stream is logged by the call that sends it; text
    for a file stream is buffered until the stream is closed. *)
Definition fprintf (f : FILE) (fmt : string) (args : list string) : M Z := λ w,
  let text := format fmt args in
  match f with
  | Fstream n =>
      match w_streams w !! n with
      | Some s =>
          (Z.of_nat (String.length text),
           World (w_env w) (w_openable w) (w_quota w) (w_files w)
                 (<[n := Stream (s_path s) (s_buf s +:+ text)]> (w_streams w)),
           [EPut n text])
      | None => (-1, w, [])
      end
  | _ => (Z.of_nat (String.length text), w, [EOut f text])
  end.

Definition printf (fmt : string) (args : list string) : M Z :=
  fprintf stdout fmt args.

(** Closing flushes the buffer to the file.  The storage keeps at most
    [w_quota] bytes of the file; when the data does not fit, what fits is
    kept and the call returns [EOF]. *)
Definition fclose (f : FILE) : M Z := λ w,
  match f with
  | Fstream n =>
      match w_streams w !! n with
      | Some s =>
          let old := default EmptyString (w_files w !! s_path s) in
          let data := old +:+ s_buf s in
          let ok := bool_decide (String.length data ≤ w_quota w)%nat in
          ((if ok then 0 else -1),
           World (w_env w) (w_openable w) (w_quota w)
                 (<[s_path s := string_take (w_quota w) data]> (w_files w))
                 (delete n (w_streams w)),
           [EClose n ok])
      | None => (-1, w, [])
      end
  | _ => (0, w, [])
  end.

(** ** The program *)

(** [main], statement for statement.  The values returned by [snprintf],
    [printf], [fprintf] and [fclose] are dropped, as in the source. *)
Definition main : M Z :=
  onedrive_path ← getenv "USERPROFILE";
  match onedrive_path with
  | None =>
      fprintf stderr ("USERPROFILE not found. Are you on Windows?" +:+ LF) [];;
      mret 1
  | Some onedrive_path =>
      let dest := (snprintf 512 "%s\OneDrive\DatRainCacheTest.txt"
                            [onedrive_path]).1 in
      printf ("Copying file to: %s" +:+ LF) [dest];;
      f ← fopen dest "w";
      match f with
      | None =>
          fprintf stderr ("Failed to open file in OneDrive folder." +:+ LF) [];;
          mret 1
      | Some f =>
          fprintf f ("This is a DatRain sync test." +:+ LF) [];;
          fclose f;;
          printf ("File created in OneDrive folder. It should sync automatically."
                  +:+ LF) [];;
          mret 0
      end
  end.

(** ** Names for the texts and paths of the program *)

Definition suffix : string := "\OneDrive\DatRainCacheTest.txt".
Definition marker_line : string := "This is a DatRain sync test." +:+ LF.
Definition msg_no_home : string :=
  "USERPROFILE not found. Are you on Windows?" +:+ LF.
Definition msg_open_failed : string :=
  "Failed to open file in OneDrive folder." +:+ LF.
Definition msg_created : string :=
  "File created in OneDrive folder. It should sync automatically." +:+ LF.
Definition msg_copying (dest : string) : string :=
  "Copying file to: " +:+ dest +:+ LF.

(** The value [getenv("USERPROFILE")] yields in a world. *)
Definition home_directory (w : world) : option string :=
  (getenv "USERPROFILE" w).1.1.

(** The path [main] has in [dest] after its [snprintf], read as a C string. *)
Definition dest_path (home : string) : string :=
  c_str (snprintf 512 "%s\OneDrive\DatRainCacheTest.txt" [home]).1.

(** The world after a run that opened [p]: the file at [p] holds what the
    storage accepted of the marker line, everything else is as before. *)
Definition world_after_write (w : world) (p : string) : world :=
  World (w_env w) (w_openable w) (w_quota w)
        (<[p := string_take (w_quota w) marker_line]> (w_files w))
        (w_streams w).

(** ** Observations on a trace *)

(** The text a run sent to one of the standard streams. *)
Fixpoint text_on (f : FILE) (l : list event) : string :=
  match l with
  | [] => EmptyString
  | EOut g t :: l' =>
      if same_stream f g then t +:+ text_on f l' else text_on f l'
  | _ :: l' => text_on f l'
  end.

(** The file-system calls of a run: opening, writing to and closing a file. *)
Definition is_fs_event (e : event) : bool :=
  match e with
  | EOut _ _ => false
  | _ => true
  end.

(** The paths a run passed to [fopen]. *)
Fixpoint opened_paths (l : list event) : list string :=
  match l with
  | [] => []
  | EOpen p _ _ :: l' => p :: opened_paths l'
  | _ :: l' => opened_paths l'
  end.

(** The bytes a run handed to a file stream. *)
Fixpoint written_bytes (l : list event) : string :=
  match l with
  | [] => EmptyString
  | EPut _ t :: l' => t +:+ written_bytes l'
  | _ :: l' => written_bytes l'
  end.

(** The two error diagnostics of the program. *)
Definition is_diagnostic (t : string) : Prop :=
  t = msg_no_home ∨ t = msg_open_failed.

(** ** Directories *)

(** [drop_prefix d p] is what follows [d] in [p], when [p] starts with [d]. *)
Fixpoint drop_prefix (d p : string) : option string :=
  match d, p with
  | EmptyString, _ => Some p
  | String _ _, EmptyString => None
  | String a d', String b p' =>
      if Ascii.eqb a b then drop_prefix d' p' else None
  end.

Fixpoint has_separator (s : string) : bool :=
  match s with
  | EmptyString => false
  | String c s' => Ascii.eqb c "\"%char || has_separator s'
  end.

(** [in_dir d p]: the path [p] names an entry directly inside the directory
    [d], that is [p] is [d], a backslash, and a non-empty name free of
    backslashes. *)
Definition in_dir (d p : string) : bool :=
  match drop_prefix (d +:+ "\") p with
  | Some (String c name) => negb (has_separator (String c name))
  | _ => false
  end.

(** The folder the program writes into, as the format string of its
    [snprintf] has it. *)
Definition vendor_folder (home : string) : string := home +:+ "\OneDrive".

(** The answers of a system on which [home] and its OneDrive folder are the
    writable directories. *)
Definition profile_with_onedrive (home p : string) : bool :=
  in_dir home p || in_dir (vendor_folder home) p.

(** ** The statements the properties are about *)

(** The run ends with status 0 and leaves the marker line, and nothing
    else, in the file [home\OneDrive\DatRainCacheTest.txt]. *)
Definition marker_file_written (w : world) (home : string) : Prop :=
  exit_status (main w) = 0 ∧
  w_files (final_world (main w)) !! (home +:+ suffix) = Some marker_line.

(** The run ends as a configuration error: a non-zero status and a
    diagnostic on standard error, with no file opened, written or closed. *)
Definition configuration_error (w : world) : Prop :=
  exit_status (main w) ≠ 0 ∧
  text_on stderr (trace (main w)) ≠ EmptyString ∧
  forallb (λ e, negb (is_fs_event e)) (trace (main w)) = true.

(** Two runs that cannot be told apart by their status, the path they
    opened, the bytes they handed to the file, or their output. *)
Definition same_behaviour (w1 w2 : world) : Prop :=
  exit_status (main w1) = exit_status (main w2) ∧
  opened_paths (trace (main w1)) = opened_paths (trace (main w2)) ∧
  written_bytes (trace (main w1)) = written_bytes (trace (main w2)) ∧
  text_on stdout (trace (main w1)) = text_on stdout (trace (main w2)) ∧
  text_on stderr (trace (main w1)) = text_on stderr (trace (main w2)).

(** ** Example worlds *)

(** A profile directory with a space in it, whose OneDrive folder exists and
    is writable. *)
Definition home_john : string := "C:\Users\John Doe".

Definition w_john : world :=
  World {[ "USERPROFILE" := home_john ]}
        (profile_with_onedrive home_john) 4096 ∅ ∅.

(** The same profile directory without a OneDrive folder. *)
Definition w_no_folder : world :=
  World {[ "USERPROFILE" := home_john ]} (in_dir home_john) 4096 ∅ ∅.

(** The same profile directory on a storage that takes ten bytes per file. *)
Definition w_full : world :=
  World {[ "USERPROFILE" := home_john ]}
        (profile_with_onedrive home_john) 10 ∅ ∅.

(** A process started without the variable. *)
Definition w_unset : world :=
  World ∅ (λ _, true) 4096 ∅ ∅.

(** The variable set to the empty string; the root of the current drive and
    its [\OneDrive] folder are writable. *)
Definition w_empty : world :=
  World {[ "USERPROFILE" := EmptyString ]}
        (profile_with_onedrive EmptyString) 4096 ∅ ∅.

(** A profile directory whose name is 500 bytes long, with a writable
    OneDrive folder. *)
Definition home_long : string :=
  "C:\Users\" +:+ string_of_list_ascii (replicate 200 "a"%char) +:+
  "\" +:+ string_of_list_ascii (replicate 200 "b"%char) +:+
  "\" +:+ string_of_list_ascii (replicate 89 "c"%char).

Definition w_long : world :=
  World {[ "USERPROFILE" := home_long ]}
        (profile_with_onedrive home_long) 4096 ∅ ∅.

(** A profile directory whose name is 520 bytes long: the last component,
    109 bytes, lies in [parent_huge], which is writable and holds a file
    whose name is the first 100 bytes of that component. *)
Definition parent_huge : string :=
  "C:\Users\" +:+ string_of_list_ascii (replicate 200 "a"%char) +:+
  "\" +:+ string_of_list_ascii (replicate 200 "b"%char).

Definition home_huge : string :=
  parent_huge +:+ "\" +:+ string_of_list_ascii (replicate 109 "c"%char).

Definition neighbour_huge : string :=
  parent_huge +:+ "\" +:+ string_of_list_ascii (replicate 100 "c"%char).

Definition w_huge : world :=
  World {[ "USERPROFILE" := home_huge ]}
        (in_dir parent_huge) 4096
        {[ neighbour_huge := "kept notes" ]} ∅.

(** A world with a file of its own beside the marker file, and with a
    stream that another part of the process holds open. *)
Definition w_busy : world :=
  World {[ "USERPROFILE" := home_john ]}
        (profile_with_onedrive home_john) 4096
        {[ "C:\Users\John Doe\OneDrive\report.txt" := "quarterly";
           "C:\Users\John Doe\OneDrive\DatRainCacheTest.txt" := "stale data, longer than the marker line itself" ]}
        {[ 0%nat := Stream "C:\Users\John Doe\log.txt" "pending" ]}.

(** * Part II: lemmas *)

(** ** Facts about C strings *)

Section CStringFacts.

Implicit Types (s t u : string) (n : nat).

Lemma c_str_idem s : c_str (c_str s) = c_str s.
Proof.
  induction s as [|c s IH]; simpl; [done|].
  destruct (Ascii.eqb c NUL) eqn:E; simpl; [done|].
  by rewrite E, IH.
Qed.

Lemma c_str_app s t : c_str s = s → c_str (s +:+ t) = s +:+ c_str t.
Proof.
  induction s as [|c s IH]; simpl; [done|].
  destruct (Ascii.eqb c NUL); [done|].
  intros [= H]. by rewrite IH.
Qed.

Lemma c_str_take n s : c_str s = s → c_str (string_take n s) = string_take n s.
Proof.
  revert s. induction n as [|n IH]; intros [|c s]; simpl; try done.
  destruct (Ascii.eqb c NUL); [done|].
  intros [= H]. by rewrite IH.
Qed.

Lemma c_str_terminated s t : c_str s = s → c_str (s +:+ String NUL t) = s.
Proof.
  induction s as [|c s IH]; simpl; [done|].
  destruct (Ascii.eqb c NUL); [done|].
  intros [= H]. by rewrite IH.
Qed.

Lemma length_app s t :
  String.length (s +:+ t) = (String.length s + String.length t)%nat.
Proof. induction s as [|c s IH]; simpl; [done|]. by rewrite IH. Qed.

Lemma length_string_take n s :
  String.length (string_take n s) = (n `min` String.length s)%nat.
Proof.
  revert s. induction n as [|n IH]; intros [|c s]; simpl; try done.
  by rewrite IH.
Qed.

Lemma string_take_all n s :
  (String.length s ≤ n)%nat → string_take n s = s.
Proof.
  revert s. induction n as [|n IH]; intros [|c s]; simpl; try done; try lia.
  intros H. rewrite IH; [done|lia].
Qed.

Lemma app_assoc_string s t u : (s +:+ t) +:+ u = s +:+ t +:+ u.
Proof.
  induction s as [|c s IH]; [done|].
  change (String c ((s +:+ t) +:+ u) = String c (s +:+ t +:+ u)).
  by f_equal.
Qed.

End CStringFacts.

(** ** The destination path *)

Lemma home_directory_c_str w home :
  home_directory w = Some home → c_str home = home.
Proof.
  unfold home_directory, getenv. simpl.
  destruct (w_env w !! "USERPROFILE") as [v|]; simpl; [|done].
  intros [= <-]. apply c_str_idem.
Qed.

Lemma home_directory_unset w :
  home_directory w = None ↔ w_env w !! "USERPROFILE" = None.
Proof.
  unfold home_directory, getenv. simpl.
  by destruct (w_env w !! "USERPROFILE").
Qed.

Lemma format_dest home :
  format "%s\OneDrive\DatRainCacheTest.txt" [home] = c_str home +:+ suffix.
Proof. reflexivity. Qed.

Lemma c_str_suffix : c_str suffix = suffix.
Proof. reflexivity. Qed.

Lemma dest_path_eq home :
  dest_path home = string_take 511 (c_str home +:+ suffix).
Proof.
  unfold dest_path, snprintf. cbv beta iota zeta delta [fst].
  rewrite format_dest. apply c_str_terminated, c_str_take.
  rewrite c_str_app by apply c_str_idem. by rewrite c_str_suffix.
Qed.

Lemma dest_path_short home :
  c_str home = home →
  (String.length home ≤ 481)%nat →
  dest_path home = home +:+ suffix.
Proof.
  intros Hc Hlen. rewrite dest_path_eq, Hc.
  apply string_take_all. rewrite length_app.
  change (String.length suffix) with 30%nat. lia.
Qed.

Lemma dest_path_truncated home :
  c_str home = home →
  (481 < String.length home)%nat →
  String.length (dest_path home) = 511%nat ∧
  dest_path home ≠ home +:+ suffix.
Proof.
  intros Hc Hlen.
  assert (String.length (dest_path home) = 511%nat) as H.
  { rewrite dest_path_eq, Hc, length_string_take, length_app.
    change (String.length suffix) with 30%nat. lia. }
  split; [done|]. intros E. rewrite E, length_app in H.
  change (String.length suffix) with 30%nat in H. lia.
Qed.

(** ** One equation per library call *)

Lemma next_handle_free w : w_streams w !! next_handle w = None.
Proof.
  unfold next_handle. apply (not_elem_of_dom (D := gset nat)).
  apply (is_fresh (C := gset nat)).
Qed.

Section Calls.

Context {A B : Type}.

Lemma bind_run (m : M A) (k : A → M B) w a w1 l1 b w2 l2 l :
  m w = (a, w1, l1) →
  k a w1 = (b, w2, l2) →
  l = (l1 ++ l2)%list →
  (m ≫= k) w = (b, w2, l).
Proof.
  intros Hm Hk ->. unfold mbind, M_bind. by rewrite Hm, Hk.
Qed.

Lemma ret_run (a : A) w : (mret a : M A) w = (a, w, []).
Proof. reflexivity. Qed.

Lemma exit_status_eq (a : A) w l : exit_status (a, w, l) = a.
Proof. reflexivity. Qed.

Lemma final_world_eq (a : A) w l : final_world (a, w, l) = w.
Proof. reflexivity. Qed.

Lemma trace_eq (a : A) w l : trace (a, w, l) = l.
Proof. reflexivity. Qed.

End Calls.

Lemma getenv_home w :
  getenv "USERPROFILE" w = (home_directory w, w, []).
Proof. reflexivity. Qed.

Lemma fprintf_std f fmt args w :
  f = stdout ∨ f = stderr →
  fprintf f fmt args w =
    (Z.of_nat (String.length (format fmt args)), w, [EOut f (format fmt args)]).
Proof. by intros [-> | ->]. Qed.

Lemma printf_run fmt args w :
  printf fmt args w =
    (Z.of_nat (String.length (format fmt args)), w,
     [EOut stdout (format fmt args)]).
Proof. reflexivity. Qed.

Lemma fopen_refused path mode w :
  w_openable w (c_str path) = false →
  fopen path mode w = (None, w, [EOpen (c_str path) (c_str mode) false]).
Proof. intros H. unfold fopen. by rewrite H. Qed.

Lemma fopen_granted path mode w :
  w_openable w (c_str path) = true →
  fopen path mode w =
    (Some (Fstream (next_handle w)),
     World (w_env w) (w_openable w) (w_quota w)
           (<[c_str path := EmptyString]> (w_files w))
           (<[next_handle w := Stream (c_str path) EmptyString]> (w_streams w)),
     [EOpen (c_str path) (c_str mode) true]).
Proof. intros H. unfold fopen. by rewrite H. Qed.

Lemma fprintf_stream n s fmt args w :
  w_streams w !! n = Some s →
  fprintf (Fstream n) fmt args w =
    (Z.of_nat (String.length (format fmt args)),
     World (w_env w) (w_openable w) (w_quota w) (w_files w)
           (<[n := Stream (s_path s) (s_buf s +:+ format fmt args)]>
              (w_streams w)),
     [EPut n (format fmt args)]).
Proof. intros H. unfold fprintf. by rewrite H. Qed.

Lemma fclose_stream n s w :
  w_streams w !! n = Some s →
  fclose (Fstream n) w =
    (let data := default EmptyString (w_files w !! s_path s) +:+ s_buf s in
     let ok := bool_decide (String.length data ≤ w_quota w)%nat in
     ((if ok then 0 else -1),
      World (w_env w) (w_openable w) (w_quota w)
            (<[s_path s := string_take (w_quota w) data]> (w_files w))
            (delete n (w_streams w)),
      [EClose n ok])).
Proof. intros H. unfold fclose. by rewrite H. Qed.

(** Runs one call of a sequence: the call's equation is given by [tac]. *)
Ltac call tac :=
  eapply bind_run; [tac | cbv beta iota | reflexivity].

(** Splits a membership in an explicit trace into its cases. *)
Ltac in_trace H :=
  rewrite ?elem_of_cons, elem_of_nil in H; destruct_or!; simplify_eq.

(** ** The three ways a run can go *)

Lemma main_no_home w :
  home_directory w = None →
  main w = (1, w, [EOut stderr msg_no_home]).
Proof.
  intros H. unfold main.
  call ltac:(rewrite getenv_home, H; reflexivity).
  call ltac:(apply fprintf_std; by right).
  apply ret_run.
Qed.

Lemma main_open_failed w home :
  home_directory w = Some home →
  w_openable w (dest_path home) = false →
  main w = (1, w, [EOut stdout (msg_copying (dest_path home));
                   EOpen (dest_path home) "w" false;
                   EOut stderr msg_open_failed]).
Proof.
  intros H Hopen. unfold main.
  call ltac:(rewrite getenv_home, H; reflexivity).
  call ltac:(apply printf_run).
  call ltac:(apply fopen_refused, Hopen).
  call ltac:(apply fprintf_std; by right).
  apply ret_run.
Qed.

Lemma main_opened w home :
  home_directory w = Some home →
  w_openable w (dest_path home) = true →
  main w = (0, world_after_write w (dest_path home),
            [EOut stdout (msg_copying (dest_path home));
             EOpen (dest_path home) "w" true;
             EPut (next_handle w) marker_line;
             EClose (next_handle w)
                    (bool_decide (String.length marker_line ≤ w_quota w)%nat);
             EOut stdout msg_created]).
Proof.
  intros H Hopen. unfold main. etrans.
  { call ltac:(rewrite getenv_home, H; reflexivity).
    call ltac:(apply printf_run).
    call ltac:(apply fopen_granted, Hopen).
    call ltac:(apply fprintf_stream; cbn [w_streams]; apply lookup_insert_eq).
    call ltac:(apply fclose_stream; cbn [w_streams]; apply lookup_insert_eq).
    call ltac:(apply printf_run).
    apply ret_run. }
  cbn [w_env w_openable w_quota w_files w_streams s_path s_buf].
  fold (dest_path home).
  rewrite lookup_insert_eq, insert_insert_eq, insert_insert_eq.
  rewrite delete_insert_eq, (delete_id _ _ (next_handle_free w)).
  reflexivity.
Qed.

Lemma world_after_write_twice w p :
  world_after_write (world_after_write w p) p = world_after_write w p.
Proof.
  unfold world_after_write. cbn [w_env w_openable w_quota w_files w_streams].
  by rewrite insert_insert_eq.
Qed.

Lemma msg_copying_not_diagnostic p : ¬ is_diagnostic (msg_copying p).
Proof. intros [H | H]; discriminate H. Qed.

Lemma msg_created_not_diagnostic : ¬ is_diagnostic msg_created.
Proof. intros [H | H]; discriminate H. Qed.

(** ** The example worlds, run *)

Example main_john :
  main w_john =
    (0,
     World (w_env w_john) (w_openable w_john) 4096
           {[ "C:\Users\John Doe\OneDrive\DatRainCacheTest.txt" := marker_line ]}
           ∅,
     [EOut stdout
        ("Copying file to: C:\Users\John Doe\OneDrive\DatRainCacheTest.txt"
         +:+ LF);
      EOpen "C:\Users\John Doe\OneDrive\DatRainCacheTest.txt" "w" true;
      EPut 0 marker_line;
      EClose 0 true;
      EOut stdout msg_created]).
Proof. vm_compute. reflexivity. Qed.

Example main_no_folder :
  main w_no_folder =
    (1, w_no_folder,
     [EOut stdout
        ("Copying file to: C:\Users\John Doe\OneDrive\DatRainCacheTest.txt"
         +:+ LF);
      EOpen "C:\Users\John Doe\OneDrive\DatRainCacheTest.txt" "w" false;
      EOut stderr msg_open_failed]).
Proof. vm_compute. reflexivity. Qed.

Example main_unset :
  main w_unset = (1, w_unset, [EOut stderr msg_no_home]).
Proof. vm_compute. reflexivity. Qed.

Example length_home_long : String.length home_long = 500%nat.
Proof. reflexivity. Qed.

Example dest_path_long : dest_path home_long = home_long +:+ "\OneDrive\D".
Proof. reflexivity. Qed.

(** A partial write reported as success: ten bytes of the line reach the
    file, [fclose] fails, and the run still returns 0. *)
Example partial_write_exit_0 :
  exit_status (main w_full) = 0 ∧
  w_files (final_world (main w_full)) !! (home_john +:+ suffix)
    = Some "This is a " ∧
  EClose 0 false ∈ trace (main w_full).
Proof.
  split_and!; [vm_compute; reflexivity ..|].
  do 3 (apply elem_of_cons; right). apply elem_of_cons. left.
  vm_compute. reflexivity.
Qed.

(** * The properties of the program *)

(** ** C1: the marker file *)

(** C1, as the code has it.  When [USERPROFILE] is set to a value of at most
    481 bytes, the file [home\OneDrive\DatRainCacheTest.txt] can be opened
    for writing, and the storage takes the 29 bytes of the line, [main]
    leaves exactly the line ["This is a DatRain sync test."] and a line feed
    in that file, whatever it held before, and returns 0. *)
Theorem marker_file_written_short_home (w : world) (home : string) :
  home_directory w = Some home →
  (String.length home ≤ 481)%nat →
  w_openable w (home +:+ suffix) = true →
  (String.length marker_line ≤ w_quota w)%nat →
  marker_file_written w home.
Proof.
  intros Hhome Hlen Hopen Hroom.
  pose proof (home_directory_c_str _ _ Hhome) as Hc.
  pose proof (dest_path_short _ Hc Hlen) as Hdest.
  rewrite <- Hdest in Hopen.
  unfold marker_file_written. rewrite (main_opened _ _ Hhome Hopen).
  rewrite exit_status_eq, final_world_eq, Hdest.
  unfold world_after_write. cbn [w_files].
  split; [done|].
  rewrite lookup_insert_eq. f_equal. by apply string_take_all.
Qed.

Lemma marker_file_written_short_home_witness :
  marker_file_written w_john home_john.
Proof.
  apply (marker_file_written_short_home w_john home_john).
  - reflexivity.
  - vm_compute. lia.
  - reflexivity.
  - vm_compute. lia.
Defined.

(** C1 fails for a long profile path.  With the 500-byte [home_long], the
    file [home\OneDrive\DatRainCacheTest.txt] openable for writing and room
    on the storage, the run returns 0 but that file does not exist
    afterwards: the line went to the truncated path [home\OneDrive\D]. *)
Lemma marker_file_missing_long_home :
  home_directory w_long = Some home_long ∧
  w_openable w_long (home_long +:+ suffix) = true ∧
  (String.length marker_line ≤ w_quota w_long)%nat ∧
  exit_status (main w_long) = 0 ∧
  w_files (final_world (main w_long)) !! (home_long +:+ suffix) = None ∧
  w_files (final_world (main w_long)) !! (home_long +:+ "\OneDrive\D")
    = Some marker_line ∧
  ¬ marker_file_written w_long home_long.
Proof.
  assert (w_files (final_world (main w_long)) !! (home_long +:+ suffix) = None)
    as Hnone by (vm_compute; reflexivity).
  split_and!.
  - reflexivity.
  - vm_compute. reflexivity.
  - vm_compute. lia.
  - vm_compute. reflexivity.
  - exact Hnone.
  - vm_compute. reflexivity.
  - intros [_ H]. rewrite Hnone in H. discriminate.
Qed.

(** ** C2: the open fails *)

(** C2.  When [fopen] refuses the destination path, [main] returns 1, the
    text on standard error is the line
    ["Failed to open file in OneDrive folder."], and the world, its files
    included, is as it was before the run: the one file-system call of the
    run is the refused open. *)
Theorem open_failure_reported (w : world) (home : string) :
  home_directory w = Some home →
  w_openable w (dest_path home) = false →
  exit_status (main w) = 1 ∧
  text_on stderr (trace (main w)) = msg_open_failed ∧
  w_files (final_world (main w)) = w_files w ∧
  final_world (main w) = w ∧
  ∀ e, e ∈ trace (main w) → is_fs_event e = true →
       e = EOpen (dest_path home) "w" false.
Proof.
  intros Hhome Hopen. rewrite (main_open_failed _ _ Hhome Hopen).
  rewrite exit_status_eq, final_world_eq, trace_eq.
  split_and!; try done.
  intros e He Hfs. by in_trace He.
Qed.

Lemma open_failure_reported_witness :
  exit_status (main w_no_folder) = 1 ∧
  text_on stderr (trace (main w_no_folder)) = msg_open_failed ∧
  w_files (final_world (main w_no_folder)) = w_files w_no_folder ∧
  final_world (main w_no_folder) = w_no_folder ∧
  ∀ e, e ∈ trace (main w_no_folder) → is_fs_event e = true →
       e = EOpen (dest_path home_john) "w" false.
Proof.
  apply (open_failure_reported w_no_folder home_john); reflexivity.
Defined.

(** ** C3: the variable is unset *)

(** C3.  When [USERPROFILE] is not in the environment, [main] returns 1, the
    text on standard error is the line
    ["USERPROFILE not found. Are you on Windows?"], nothing is printed on
    standard output, no file is opened, written or closed, and the world is
    left as it was. *)
Theorem unset_home_reported (w : world) :
  w_env w !! "USERPROFILE" = None →
  exit_status (main w) = 1 ∧
  text_on stderr (trace (main w)) = msg_no_home ∧
  text_on stdout (trace (main w)) = EmptyString ∧
  forallb (λ e, negb (is_fs_event e)) (trace (main w)) = true ∧
  final_world (main w) = w.
Proof.
  intros H. apply home_directory_unset in H.
  rewrite (main_no_home _ H). by split_and!.
Qed.

Lemma unset_home_reported_witness :
  exit_status (main w_unset) = 1 ∧
  text_on stderr (trace (main w_unset)) = msg_no_home ∧
  text_on stdout (trace (main w_unset)) = EmptyString ∧
  forallb (λ e, negb (is_fs_event e)) (trace (main w_unset)) = true ∧
  final_world (main w_unset) = w_unset.
Proof.
  apply (unset_home_reported w_unset). reflexivity.
Defined.

(** ** C4: the variable is set to the empty string *)

(** C4 fails.  With [USERPROFILE] set to the empty string and a writable
    [\OneDrive] folder, the run opens [\OneDrive\DatRainCacheTest.txt],
    writes the line into it, prints nothing on standard error and returns
    0. *)
Lemma empty_home_not_rejected :
  w_env w_empty !! "USERPROFILE" = Some EmptyString ∧
  exit_status (main w_empty) = 0 ∧
  text_on stderr (trace (main w_empty)) = EmptyString ∧
  EOpen suffix "w" true ∈ trace (main w_empty) ∧
  w_files (final_world (main w_empty)) !! suffix = Some marker_line ∧
  ¬ configuration_error w_empty.
Proof.
  split_and!; try (vm_compute; reflexivity).
  - apply elem_of_cons. right. apply elem_of_cons. left.
    vm_compute. reflexivity.
  - intros [H _]. apply H. vm_compute. reflexivity.
Qed.

(** C4, as the code has it.  An empty [USERPROFILE] is not told apart from
    any other value: [main] builds the path [\OneDrive\DatRainCacheTest.txt],
    prints it on standard output and tries to open it.  The status is 0 when
    the open succeeds, and 1 with the open-failure line on standard error
    when it does not; the not-found diagnostic is not printed. *)
Theorem empty_home_proceeds (w : world) :
  w_env w !! "USERPROFILE" = Some EmptyString →
  ∃ rest,
    trace (main w) =
      EOut stdout (msg_copying suffix)
      :: EOpen suffix "w" (w_openable w suffix) :: rest ∧
    exit_status (main w) = (if w_openable w suffix then 0 else 1) ∧
    text_on stderr (trace (main w)) =
      (if w_openable w suffix then EmptyString else msg_open_failed).
Proof.
  intros Henv.
  assert (home_directory w = Some EmptyString) as Hhome.
  { unfold home_directory, getenv. simpl. by rewrite Henv. }
  change suffix with (dest_path EmptyString).
  destruct (w_openable w (dest_path EmptyString)) eqn:Hopen.
  - rewrite (main_opened _ _ Hhome Hopen). by eexists.
  - rewrite (main_open_failed _ _ Hhome Hopen). by eexists.
Qed.

Lemma empty_home_proceeds_witness :
  ∃ rest,
    trace (main w_empty) =
      EOut stdout (msg_copying suffix)
      :: EOpen suffix "w" (w_openable w_empty suffix) :: rest ∧
    exit_status (main w_empty) = (if w_openable w_empty suffix then 0 else 1) ∧
    text_on stderr (trace (main w_empty)) =
      (if w_openable w_empty suffix then EmptyString else msg_open_failed).
Proof.
  apply (empty_home_proceeds w_empty). reflexivity.
Defined.

(** ** C5: the printed path is the opened path *)

(** C5.  For a set, non-empty [USERPROFILE], blanks or not, the run passes
    one path to [fopen], and that path, byte for byte, is the one in the
    ["Copying file to: "] line on standard output, which is the first thing
    printed there. *)
Theorem printed_path_is_opened_path (w : world) (home : string) :
  home_directory w = Some home →
  home ≠ EmptyString →
  ∃ p more,
    opened_paths (trace (main w)) = [p] ∧
    text_on stdout (trace (main w)) = "Copying file to: " +:+ p +:+ LF +:+ more ∧
    (more = EmptyString ∨ more = msg_created) ∧
    p = dest_path home.
Proof.
  intros Hhome _. exists (dest_path home).
  destruct (w_openable w (dest_path home)) eqn:Hopen.
  - exists msg_created. rewrite (main_opened _ _ Hhome Hopen).
    split_and!; [done| |by right|done].
    rewrite trace_eq. cbn [text_on same_stream]. unfold msg_copying.
    by rewrite !app_assoc_string.
  - exists EmptyString. rewrite (main_open_failed _ _ Hhome Hopen).
    split_and!; [done| |by left|done].
    rewrite trace_eq. cbn [text_on same_stream]. unfold msg_copying.
    by rewrite !app_assoc_string.
Qed.

Lemma printed_path_is_opened_path_witness :
  ∃ p more,
    opened_paths (trace (main w_john)) = [p] ∧
    text_on stdout (trace (main w_john))
      = "Copying file to: " +:+ p +:+ LF +:+ more ∧
    (more = EmptyString ∨ more = msg_created) ∧
    p = dest_path home_john.
Proof.
  apply (printed_path_is_opened_path w_john home_john).
  - reflexivity.
  - discriminate.
Defined.

(** ** C6: running twice *)

(** C6.  A second run, started in the world the first run left, ends with
    the same status, prints the same, and leaves every file as the first run
    left it.  When the first run returned 0, the second opens the same path
    for writing again (which empties the file) and the file then holds the
    same bytes as after the first run. *)
Theorem second_run_identical (w : world) :
  let first := main w in
  let second := main (final_world first) in
  exit_status second = exit_status first ∧
  trace second = trace first ∧
  w_files (final_world second) = w_files (final_world first) ∧
  (exit_status first = 0 →
   ∃ p, EOpen p "w" true ∈ trace second ∧
        w_files (final_world first) !! p
          = Some (string_take (w_quota w) marker_line) ∧
        w_files (final_world second) !! p
          = Some (string_take (w_quota w) marker_line)).
Proof.
  cbv zeta.
  destruct (home_directory w) as [home|] eqn:Hhome;
    [destruct (w_openable w (dest_path home)) eqn:Hopen|].
  - rewrite (main_opened _ _ Hhome Hopen), final_world_eq.
    rewrite (main_opened (world_after_write w (dest_path home)) home)
      by done.
    rewrite world_after_write_twice.
    rewrite !exit_status_eq, !trace_eq, !final_world_eq.
    split_and!; try done.
    intros _. exists (dest_path home). split_and!.
    + apply elem_of_cons. right. apply elem_of_cons. by left.
    + apply lookup_insert_eq.
    + apply lookup_insert_eq.
  - rewrite (main_open_failed _ _ Hhome Hopen), final_world_eq.
    rewrite (main_open_failed _ _ Hhome Hopen).
    by split_and!.
  - rewrite (main_no_home _ Hhome), final_world_eq.
    rewrite (main_no_home _ Hhome).
    by split_and!.
Qed.

Lemma second_run_identical_witness :
  ∃ p, EOpen p "w" true ∈ trace (main (final_world (main w_john))) ∧
       w_files (final_world (main w_john)) !! p = Some marker_line ∧
       w_files (final_world (main (final_world (main w_john)))) !! p
         = Some marker_line.
Proof.
  destruct (second_run_identical w_john) as (_ & _ & _ & H).
  apply H. vm_compute. reflexivity.
Defined.

(** ** C7: order of the output, and where diagnostics go *)

(** C7.  In every run, each file-system call (open, write, close) comes
    after the ["Copying file to: "] line for the opened path has been sent
    to standard output; an error diagnostic is only ever sent to standard
    error, and nothing but the diagnostics is sent there. *)
Theorem progress_before_write_errors_on_stderr (w : world) :
  (∀ i e, trace (main w) !! i = Some e → is_fs_event e = true →
     ∃ j p, (j < i)%nat ∧
            trace (main w) !! j = Some (EOut stdout (msg_copying p)) ∧
            opened_paths (trace (main w)) = [p]) ∧
  (∀ f t, EOut f t ∈ trace (main w) → is_diagnostic t → f = stderr) ∧
  (∀ t, EOut stderr t ∈ trace (main w) → is_diagnostic t).
Proof.
  destruct (home_directory w) as [home|] eqn:Hhome;
    [destruct (w_openable w (dest_path home)) eqn:Hopen|].
  - rewrite (main_opened _ _ Hhome Hopen), trace_eq. split_and!.
    + intros i e Hi Hfs. exists 0%nat, (dest_path home).
      split_and!; [|done|done].
      destruct i as [|i]; [|lia]. by injection Hi as <-.
    + intros f t Hin Hd. in_trace Hin.
      * by apply msg_copying_not_diagnostic in Hd.
      * by apply msg_created_not_diagnostic in Hd.
    + intros t Hin. in_trace Hin.
  - rewrite (main_open_failed _ _ Hhome Hopen), trace_eq. split_and!.
    + intros i e Hi Hfs. exists 0%nat, (dest_path home).
      split_and!; [|done|done].
      destruct i as [|i]; [|lia]. by injection Hi as <-.
    + intros f t Hin Hd. in_trace Hin; [|done].
      by apply msg_copying_not_diagnostic in Hd.
    + intros t Hin. in_trace Hin. by right.
  - rewrite (main_no_home _ Hhome), trace_eq. split_and!.
    + intros i e Hi Hfs.
      destruct i as [|i]; [by injection Hi as <-|done].
    + intros f t Hin _. by in_trace Hin.
    + intros t Hin. in_trace Hin. by left.
Qed.

Lemma progress_before_write_errors_on_stderr_witness :
  ∃ j p, (j < 1)%nat ∧
         trace (main w_john) !! j = Some (EOut stdout (msg_copying p)) ∧
         opened_paths (trace (main w_john)) = [p].
Proof.
  destruct (progress_before_write_errors_on_stderr w_john) as (H & _ & _).
  apply (H 1%nat (EOpen (home_john +:+ suffix) "w" true)); reflexivity.
Defined.

(** ** C8: success is reported whatever the write did *)

(** C8.  Once [fopen] has succeeded, [main] returns 0 and prints the success
    line, for every amount of data the storage accepts: the file ends up
    with the part of the line that fitted, [fclose] reports whether all of it
    did, and neither outcome changes the status or the output. *)
Theorem success_reported_after_open (w : world) (home : string) :
  home_directory w = Some home →
  w_openable w (dest_path home) = true →
  exit_status (main w) = 0 ∧
  text_on stdout (trace (main w))
    = msg_copying (dest_path home) +:+ msg_created ∧
  text_on stderr (trace (main w)) = EmptyString ∧
  w_files (final_world (main w)) !! dest_path home
    = Some (string_take (w_quota w) marker_line) ∧
  EClose (next_handle w)
         (bool_decide (String.length marker_line ≤ w_quota w)%nat)
    ∈ trace (main w) ∧
  ((w_quota w < String.length marker_line)%nat →
   w_files (final_world (main w)) !! dest_path home ≠ Some marker_line).
Proof.
  intros Hhome Hopen. rewrite (main_opened _ _ Hhome Hopen).
  rewrite exit_status_eq, trace_eq, final_world_eq.
  unfold world_after_write. cbn [w_files]. rewrite lookup_insert_eq.
  split_and!; try done.
  - do 3 (apply elem_of_cons; right). apply elem_of_cons. by left.
  - intros Hlt [= E].
    pose proof (length_string_take (w_quota w) marker_line) as Hlen.
    rewrite E in Hlen. lia.
Qed.

Lemma success_reported_after_open_witness :
  exit_status (main w_full) = 0 ∧
  text_on stdout (trace (main w_full))
    = msg_copying (dest_path home_john) +:+ msg_created ∧
  text_on stderr (trace (main w_full)) = EmptyString ∧
  w_files (final_world (main w_full)) !! dest_path home_john
    = Some (string_take (w_quota w_full) marker_line) ∧
  EClose (next_handle w_full)
         (bool_decide (String.length marker_line ≤ w_quota w_full)%nat)
    ∈ trace (main w_full) ∧
  ((w_quota w_full < String.length marker_line)%nat →
   w_files (final_world (main w_full)) !! dest_path home_john
     ≠ Some marker_line).
Proof.
  apply (success_reported_after_open w_full home_john); reflexivity.
Defined.

(** ** C9: the 512-byte buffer *)

(** C9.  Whatever the value of [USERPROFILE], [snprintf] stores at most 512
    bytes in [dest]: at most 511 bytes of the expansion and the NUL after
    them.  When the value and the suffix together are longer than 511 bytes,
    the path in [dest] is their first 511 bytes, and the run goes on with it
    as with any other path: it prints it, opens it, and the status and the
    text on standard error depend on the outcome of the open alone. *)
Theorem dest_never_overflows (w : world) (home : string) :
  home_directory w = Some home →
  let buf := (snprintf 512 "%s\OneDrive\DatRainCacheTest.txt" [home]).1 in
  (String.length buf ≤ 512)%nat ∧
  buf = dest_path home +:+ String NUL EmptyString ∧
  (String.length (dest_path home) ≤ 511)%nat ∧
  dest_path home = string_take 511 (home +:+ suffix) ∧
  ((511 < String.length (home +:+ suffix))%nat →
   String.length (dest_path home) = 511%nat ∧
   dest_path home ≠ home +:+ suffix ∧
   ∃ rest,
     trace (main w) =
       EOut stdout (msg_copying (dest_path home))
       :: EOpen (dest_path home) "w" (w_openable w (dest_path home)) :: rest ∧
     exit_status (main w) = (if w_openable w (dest_path home) then 0 else 1) ∧
     text_on stderr (trace (main w)) =
       (if w_openable w (dest_path home) then EmptyString
        else msg_open_failed)).
Proof.
  intros Hhome buf.
  pose proof (home_directory_c_str _ _ Hhome) as Hc.
  assert (dest_path home = string_take 511 (home +:+ suffix)) as Hdest
    by (by rewrite dest_path_eq, Hc).
  assert (buf = dest_path home +:+ String NUL EmptyString) as Hbuf.
  { rewrite Hdest. unfold buf, snprintf. cbn [fst].
    by rewrite format_dest, Hc. }
  assert (String.length (dest_path home) ≤ 511)%nat as Hlen
    by (rewrite Hdest, length_string_take; lia).
  split_and!; try done.
  - rewrite Hbuf, length_app. simpl. lia.
  - intros Hlong. rewrite length_app in Hlong.
    change (String.length suffix) with 30%nat in Hlong.
    destruct (dest_path_truncated home Hc) as [H511 Hne]; [lia|].
    split_and!; try done.
    destruct (w_openable w (dest_path home)) eqn:Hopen.
    + rewrite (main_opened _ _ Hhome Hopen). by eexists.
    + rewrite (main_open_failed _ _ Hhome Hopen). by eexists.
Qed.

Lemma dest_never_overflows_witness :
  (511 < String.length (home_long +:+ suffix))%nat ∧
  String.length (dest_path home_long) = 511%nat ∧
  dest_path home_long ≠ home_long +:+ suffix ∧
  exit_status (main w_long) = 0.
Proof.
  destruct (dest_never_overflows w_long home_long) as (_ & _ & _ & _ & H);
    [reflexivity|].
  assert (511 < String.length (home_long +:+ suffix))%nat as Hlong
    by (vm_compute; lia).
  destruct (H Hlong) as (H511 & Hne & rest & _ & Hexit & _).
  split_and!; [exact Hlong|exact H511|exact Hne|].
  rewrite Hexit. vm_compute. reflexivity.
Defined.

(** ** C10: what a run depends on *)

(** C10 fails when only [USERPROFILE] is kept fixed.  [w_john] and
    [w_no_folder] have the same value for it, yet one run returns 0 and the
    other returns 1 with a diagnostic, because the OneDrive folder exists in
    one and not in the other.  [w_john] and [w_full] agree on the variable
    and on the folder, yet the files they leave differ, because the second
    storage takes ten bytes only. *)
Lemma same_home_different_runs :
  home_directory w_john = home_directory w_no_folder ∧
  exit_status (main w_john) = 0 ∧
  exit_status (main w_no_folder) = 1 ∧
  text_on stderr (trace (main w_john)) = EmptyString ∧
  text_on stderr (trace (main w_no_folder)) = msg_open_failed ∧
  ¬ same_behaviour w_john w_no_folder ∧
  home_directory w_john = home_directory w_full ∧
  w_files (final_world (main w_john)) !! (home_john +:+ suffix)
    = Some marker_line ∧
  w_files (final_world (main w_full)) !! (home_john +:+ suffix)
    = Some "This is a ".
Proof.
  split_and!; try (vm_compute; reflexivity).
  intros [H _]. vm_compute in H. discriminate H.
Qed.

(** C10, as the code has it.  Two runs with the same value (or absence) of
    [USERPROFILE] for which the operating system gives the same answer to
    opening the destination path end with the same status, open the same
    path, hand the same bytes to the file and print the same on standard
    output and standard error.  When the two storages also accept the same
    number of bytes, the destination file holds the same content after
    both. *)
Theorem behaviour_determined (w1 w2 : world) :
  home_directory w1 = home_directory w2 →
  (∀ home, home_directory w1 = Some home →
           w_openable w1 (dest_path home) = w_openable w2 (dest_path home)) →
  same_behaviour w1 w2 ∧
  (w_quota w1 = w_quota w2 →
   ∀ p, p ∈ opened_paths (trace (main w1)) →
        exit_status (main w1) = 0 →
        w_files (final_world (main w1)) !! p
          = w_files (final_world (main w2)) !! p).
Proof.
  intros Hsame Hopen. unfold same_behaviour.
  destruct (home_directory w1) as [home|] eqn:H1; symmetry in Hsame.
  - specialize (Hopen home eq_refl).
    destruct (w_openable w1 (dest_path home)) eqn:Ho1; symmetry in Hopen.
    + rewrite (main_opened _ _ H1 Ho1), (main_opened _ _ Hsame Hopen).
      rewrite !exit_status_eq, !trace_eq, !final_world_eq.
      split_and!; try done.
      intros Hq p Hp _. cbn [opened_paths] in Hp.
      apply list_elem_of_singleton in Hp as ->.
      unfold world_after_write. cbn [w_files].
      by rewrite !lookup_insert_eq, Hq.
    + rewrite (main_open_failed _ _ H1 Ho1),
        (main_open_failed _ _ Hsame Hopen).
      rewrite !exit_status_eq, !trace_eq, !final_world_eq.
      by split_and!.
  - rewrite (main_no_home _ H1), (main_no_home _ Hsame).
    rewrite !exit_status_eq, !trace_eq, !final_world_eq.
    by split_and!.
Qed.

Lemma behaviour_determined_witness :
  same_behaviour w_john w_full.
Proof.
  apply (behaviour_determined w_john w_full).
  - reflexivity.
  - intros home _. reflexivity.
Defined.

(** * Further properties of [main] *)

(** ** The exit status *)

(** [main] returns 0 or 1, and it returns 0 exactly when [USERPROFILE] is
    set and [fopen] accepts the path built from it: nothing that happens
    after the open can turn a run into a failure. *)
Theorem exit_status_zero_iff (w : world) :
  (exit_status (main w) = 0 ∨ exit_status (main w) = 1) ∧
  (exit_status (main w) = 0 ↔
   ∃ home, home_directory w = Some home ∧
           w_openable w (dest_path home) = true).
Proof.
  destruct (home_directory w) as [home|] eqn:Hhome;
    [destruct (w_openable w (dest_path home)) eqn:Hopen|].
  - rewrite (main_opened _ _ Hhome Hopen), exit_status_eq.
    split; [by left|]. split; [|done]. intros _. by exists home.
  - rewrite (main_open_failed _ _ Hhome Hopen), exit_status_eq.
    split; [by right|]. split; [done|].
    intros (h & [= <-] & Ho). congruence.
  - rewrite (main_no_home _ Hhome), exit_status_eq.
    split; [by right|]. split; [done|]. by intros (h & ? & _).
Qed.

Lemma exit_status_zero_iff_witness :
  exit_status (main w_busy) = 0.
Proof.
  destruct (exit_status_zero_iff w_busy) as [_ [_ H]].
  apply H. exists home_john. split; reflexivity.
Defined.

(** ** Streams and the rest of the world *)

(** Every run leaves the table of open streams as it found it: the stream
    [main] opens is closed before it returns, on the failing paths none was
    opened, and streams held by others are not touched.  The environment,
    the answers of the system and the storage limit are unchanged too. *)
Theorem no_stream_left_open (w : world) :
  w_streams (final_world (main w)) = w_streams w ∧
  w_env (final_world (main w)) = w_env w ∧
  w_quota (final_world (main w)) = w_quota w ∧
  (∀ p m, EOpen p m true ∈ trace (main w) →
          ∃ ok, EClose (next_handle w) ok ∈ trace (main w) ∧
                w_streams w !! next_handle w = None).
Proof.
  destruct (home_directory w) as [home|] eqn:Hhome;
    [destruct (w_openable w (dest_path home)) eqn:Hopen|].
  - rewrite (main_opened _ _ Hhome Hopen), final_world_eq, trace_eq.
    split_and!; try done.
    intros p m _. eexists. split; [|apply next_handle_free].
    do 3 (apply elem_of_cons; right). apply elem_of_cons. by left.
  - rewrite (main_open_failed _ _ Hhome Hopen), final_world_eq, trace_eq.
    split_and!; try done. intros p m Hin. in_trace Hin.
  - rewrite (main_no_home _ Hhome), final_world_eq, trace_eq.
    split_and!; try done. intros p m Hin. in_trace Hin.
Qed.

Lemma no_stream_left_open_witness :
  w_streams (final_world (main w_busy))
    = {[ 0%nat := Stream "C:\Users\John Doe\log.txt" "pending" ]} ∧
  ∃ ok, EClose (next_handle w_busy) ok ∈ trace (main w_busy) ∧
        w_streams w_busy !! next_handle w_busy = None.
Proof.
  destruct (no_stream_left_open w_busy) as (Hs & _ & _ & H).
  split; [exact Hs|].
  apply (H (home_john +:+ suffix) "w").
  apply elem_of_cons. right. apply elem_of_cons. left.
  vm_compute. reflexivity.
Defined.

(** No file other than the one path passed to [fopen] is created, changed
    or removed by a run, and a run that returns 1 changes no file at all. *)
Theorem only_destination_changes (w : world) :
  (∀ p, p ∉ opened_paths (trace (main w)) →
        w_files (final_world (main w)) !! p = w_files w !! p) ∧
  (exit_status (main w) = 1 →
   w_files (final_world (main w)) = w_files w).
Proof.
  destruct (home_directory w) as [home|] eqn:Hhome;
    [destruct (w_openable w (dest_path home)) eqn:Hopen|].
  - rewrite (main_opened _ _ Hhome Hopen).
    rewrite final_world_eq, trace_eq, exit_status_eq.
    split; [|done]. intros p Hp. cbn [opened_paths] in Hp.
    unfold world_after_write. cbn [w_files].
    apply lookup_insert_ne. intros E. apply Hp. rewrite <- E.
    by apply list_elem_of_singleton.
  - rewrite (main_open_failed _ _ Hhome Hopen), final_world_eq. by split.
  - rewrite (main_no_home _ Hhome), final_world_eq. by split.
Qed.

Lemma only_destination_changes_witness :
  w_files (final_world (main w_busy))
    !! "C:\Users\John Doe\OneDrive\report.txt" = Some "quarterly" ∧
  w_files (final_world (main w_busy))
    !! "C:\Users\John Doe\OneDrive\DatRainCacheTest.txt" = Some marker_line.
Proof.
  destruct (only_destination_changes w_busy) as [H _]. split.
  - rewrite H; [reflexivity|].
    intros Hin. apply list_elem_of_singleton in Hin. discriminate Hin.
  - vm_compute. reflexivity.
Defined.

(** ** A value of 511 bytes or more *)

Lemma string_take_app (n : nat) (s t : string) :
  (n ≤ String.length s)%nat → string_take n (s +:+ t) = string_take n s.
Proof.
  revert s. induction n as [|n IH]; intros [|c s]; simpl; try done; try lia.
  intros H. rewrite IH; [done|lia].
Qed.

(** When the value of [USERPROFILE] is itself 511 bytes or longer, nothing
    of [\OneDrive\DatRainCacheTest.txt] is left in the path: [main] opens
    the first 511 bytes of the value, and when that open succeeds it
    returns 0 after replacing whatever that file held. *)
Theorem oversized_home_drops_suffix (w : world) (home : string) :
  home_directory w = Some home →
  (511 ≤ String.length home)%nat →
  dest_path home = string_take 511 home ∧
  opened_paths (trace (main w)) = [string_take 511 home] ∧
  (w_openable w (string_take 511 home) = true →
   exit_status (main w) = 0 ∧
   w_files (final_world (main w)) !! string_take 511 home
     = Some (string_take (w_quota w) marker_line)).
Proof.
  intros Hhome Hlen.
  pose proof (home_directory_c_str _ _ Hhome) as Hc.
  assert (dest_path home = string_take 511 home) as Hdest
    by (by rewrite dest_path_eq, Hc, string_take_app).
  rewrite <- Hdest. split; [done|].
  destruct (w_openable w (dest_path home)) eqn:Hopen.
  - rewrite (main_opened _ _ Hhome Hopen).
    rewrite trace_eq, exit_status_eq, final_world_eq.
    split; [done|]. intros _. split; [done|].
    unfold world_after_write. cbn [w_files]. apply lookup_insert_eq.
  - rewrite (main_open_failed _ _ Hhome Hopen), trace_eq. by split.
Qed.

Lemma oversized_home_drops_suffix_witness :
  w_files w_huge !! neighbour_huge = Some "kept notes" ∧
  exit_status (main w_huge) = 0 ∧
  w_files (final_world (main w_huge)) !! neighbour_huge = Some marker_line.
Proof.
  destruct (oversized_home_drops_suffix w_huge home_huge) as (_ & _ & H).
  - reflexivity.
  - vm_compute. lia.
  - split; [reflexivity|]. apply H. vm_compute. reflexivity.
Defined.

(** ** Output and status *)



